(** * A voice assistant: intent dispatch loop and weather-lookup adapter

    Shallow embedding of [chatbot.py] and [weather_adapter.py].

    The Python methods are embedded as computations in a state-and-exception
    monad: the receiver object [self] is the state, an exception aborts the
    rest of the computation and keeps the mutations done so far, and every
    call to a collaborator outside the program (network, microphone, models,
    console) is recorded in a chronological trace held by the [World]. *)

From Stdlib Require Import String Ascii List ZArith QArith Bool Lia DecimalString.
Import ListNotations.
Set Warnings "-register-all".
Local Open Scope string_scope.
Local Open Scope Z_scope.

(** ** Python values, exceptions and subscripting *)

(** The exception classes that the two source files can meet. *)
Inductive exn : Type :=
| AttributeError (attribute : string)
| TypeError (message : string)
| IndexError (message : string)
| KeyError (key : string)
| UnboundLocalError (variable : string)
| JSONDecodeError
| ConnectionError
| UnknownValueError
| RequestError (message : string)
| OSError
| OtherException (message : string)
| KeyboardInterrupt.

(** [except Exception] catches every class above but [KeyboardInterrupt],
    which derives from [BaseException] only. *)
Definition is_Exception (e : exn) : bool :=
  match e with
  | KeyboardInterrupt => false
  | _ => true
  end.

(** [except OSError]. *)
Definition is_OSError (e : exn) : bool :=
  match e with
  | OSError => true
  | _ => false
  end.

Inductive result (A : Type) : Type :=
| Ok (a : A)
| Raise (e : exn).
Arguments Ok {A} a.
Arguments Raise {A} e.

(** The objects [response.json()] can build: [None], booleans, numbers (kept
    as their lexeme: no arithmetic is done on them), strings, lists and
    dictionaries with string keys (each key once, as in a Python dict). *)
Inductive value : Type :=
| VNone
| VBool (b : bool)
| VNum (lexeme : string)
| VStr (s : string)
| VList (items : list value)
| VDict (items : list (string * value)).

Fixpoint dict_get {A : Type} (d : list (string * A)) (k : string) : option A :=
  match d with
  | [] => None
  | (k', v) :: d' => if String.eqb k' k then Some v else dict_get d' k
  end.

(** [l[i]] on a Python list: a negative index counts from the end, an index
    outside the list raises IndexError. *)
Definition list_getitem {A : Type} (l : list A) (i : Z) : result A :=
  let n := Z.of_nat (List.length l) in
  let j := if i <? 0 then i + n else i in
  if (0 <=? j) && (j <? n) then
    match nth_error l (Z.to_nat j) with
    | Some x => Ok x
    | None => Raise (IndexError "list index out of range")
    end
  else Raise (IndexError "list index out of range").

(** [s[i]] on a Python string: a one-character string. *)
Definition str_getitem (s : string) (i : Z) : result string :=
  let n := Z.of_nat (String.length s) in
  let j := if i <? 0 then i + n else i in
  if (0 <=? j) && (j <? n) then
    match String.get (Z.to_nat j) s with
    | Some c => Ok (String c EmptyString)
    | None => Raise (IndexError "string index out of range")
    end
  else Raise (IndexError "string index out of range").

(** [v[k]] with a string key [k]. *)
Definition getitem_str (v : value) (k : string) : result value :=
  match v with
  | VDict d =>
      match dict_get d k with
      | Some x => Ok x
      | None => Raise (KeyError k)
      end
  | VList _ => Raise (TypeError "list indices must be integers or slices, not str")
  | VStr _ => Raise (TypeError "string indices must be integers")
  | VNone | VBool _ | VNum _ => Raise (TypeError "object is not subscriptable")
  end.

(** [v[i]] with an integer [i]. A dictionary decoded from JSON has string
    keys only, so an integer key is never found. *)
Definition getitem_int (v : value) (i : Z) : result value :=
  match v with
  | VList l => list_getitem l i
  | VStr s =>
      match str_getitem s i with
      | Ok c => Ok (VStr c)
      | Raise e => Raise e
      end
  | VDict _ => Raise (KeyError (NilZero.string_of_int (Z.to_int i)))
  | VNone | VBool _ | VNum _ => Raise (TypeError "object is not subscriptable")
  end.

(** ** The world outside the program *)

(** What [requests.get] meets: no answer at all, or a response with its
    status code and its body ([None] when the body is not JSON). *)
Inductive http_outcome : Type :=
| NetworkFailure
| Response (status_code : Z) (body : option value).

(** What the recogniser does with one utterance. *)
Inductive sr_outcome : Type :=
| Recognized (utterance : string)
| Fails (e : exn).

(** What happens to one synthesis: whether the temporary file could be
    created, what (if anything) was raised while synthesising and playing,
    and whether the file could be removed afterwards. *)
Record tts_outcome : Type := {
  tempfile_created : bool;
  playback_error : option exn;
  tempfile_removed : bool
}.

(** One entry per interaction with a collaborator. *)
Inductive event : Type :=
| HttpGet (url : string)
| Print (line : string)
| LogError (message : string)
| Listen
| Speak (text : string)
| Encode (batch : list string)
| Entities (text : string)
| Dialogue (text : string)
| ReadClock
| RandomChoice (options : list string).

(** The environment answers as a function of the instant, which is the
    number of interactions so far. *)
Record World : Type := {
  backend : nat -> string -> http_outcome;
  microphone : nat -> sr_outcome;
  synthesiser : nat -> tts_outcome;
  clock : nat -> string;
  dice : nat -> nat;
  trace : list event
}.

Definition now (w : World) : nat := List.length (trace w).

Definition record (e : event) (w : World) : World :=
  {| backend := backend w; microphone := microphone w;
     synthesiser := synthesiser w; clock := clock w; dice := dice w;
     trace := (trace w ++ [e])%list |}.

(** ** The monad of method bodies *)

Definition M (S A : Type) : Type := S -> World -> result A * S * World.

Definition ret {S A : Type} (a : A) : M S A := fun s w => (Ok a, s, w).

Definition raise {S A : Type} (e : exn) : M S A := fun s w => (Raise e, s, w).

Definition bind {S A B : Type} (m : M S A) (k : A -> M S B) : M S B :=
  fun s w =>
    match m s w with
    | (Ok a, s', w') => k a s' w'
    | (Raise e, s', w') => (Raise e, s', w')
    end.

Declare Scope py_scope.
Delimit Scope py_scope with py.
Notation "x <- m ;; k" := (bind m (fun x => k))
  (at level 100, m at next level, right associativity) : py_scope.
Notation "m ;; k" := (bind m (fun _ => k))
  (at level 100, right associativity) : py_scope.
Local Open Scope py_scope.

Definition get_self {S : Type} : M S S := fun s w => (Ok s, s, w).

Definition put_self {S : Type} (s : S) : M S unit := fun _ w => (Ok tt, s, w).

Definition emit {S : Type} (e : event) : M S unit :=
  fun s w => (Ok tt, s, record e w).

Definition lift {S A : Type} (r : result A) : M S A := fun s w => (r, s, w).

(** [try: body / except <classes>: handler]. *)
Definition try_except {S A : Type} (body : M S A) (caught : exn -> bool)
    (handler : exn -> M S A) : M S A :=
  fun s w =>
    match body s w with
    | (Raise e, s', w') =>
        if caught e then handler e s' w' else (Raise e, s', w')
    | done => done
    end.

(** [try: body / finally: cleanup]: the cleanup always runs; what it raises
    replaces the outcome of the body. *)
Definition try_finally {S A : Type} (body : M S A) (cleanup : M S unit) : M S A :=
  fun s w =>
    match body s w with
    | (r, s', w') =>
        match cleanup s' w' with
        | (Ok _, s'', w'') => (r, s'', w'')
        | (Raise e, s'', w'') => (Raise e, s'', w'')
        end
    end.

Definition outcome {S A : Type} (x : result A * S * World) : result A := fst (fst x).
Definition final_self {S A : Type} (x : result A * S * World) : S := snd (fst x).
Definition final_world {S A : Type} (x : result A * S * World) : World := snd x.

(** [print(line)]. *)
Definition print {S : Type} (line : string) : M S unit := emit (Print line).

(** [requests.get(url)]: the answer of the backend at this instant. *)
Definition requests_get {S : Type} (url : string) : M S (Z * option value) :=
  fun s w =>
    match backend w (now w) url with
    | NetworkFailure => (Raise ConnectionError, s, record (HttpGet url) w)
    | Response code body => (Ok (code, body), s, record (HttpGet url) w)
    end.

(** [response.json()]. *)
Definition response_json (body : option value) : result value :=
  match body with
  | Some v => Ok v
  | None => Raise JSONDecodeError
  end.

(** [str(n)] for an integer. *)
Definition str_of_int (n : Z) : string := NilZero.string_of_int (Z.to_int n).

(** ** weather_adapter.py *)

Module WeatherAdapter.

Record t : Type := {
  api_key : string;
  base_url : string
}.

Definition __init__ (key : string) : t :=
  {| api_key := key;
     base_url := "http://api.openweathermap.org/data/2.5/weather" |}.

(** The f-string [f"{self.base_url}?q={city_name}&appid={self.api_key}"]. *)
Definition request_url (self : t) (city_name : string) : string :=
  base_url self ++ "?q=" ++ city_name ++ "&appid=" ++ api_key self.

Definition get_weather (city_name : string) : M t value :=
  self <- get_self ;;
  let api_url := request_url self city_name in
  response <- requests_get api_url ;;
  let '(status_code, body) := response in
  if status_code =? 200 then
    response_dict <- lift (response_json body) ;;
    forecasts <- lift (getitem_str response_dict "weather") ;;
    first <- lift (getitem_int forecasts 0) ;;
    weather <- lift (getitem_str first "description") ;;
    ret weather
  else
    print ("[!] HTTP " ++ str_of_int status_code ++ " calling [" ++ api_url ++ "]") ;;
    ret VNone.

(** *** Concrete backends used in the examples *)

Definition quiet_world (net : nat -> string -> http_outcome) : World :=
  {| backend := net;
     microphone := fun _ => Fails UnknownValueError;
     synthesiser := fun _ =>
       {| tempfile_created := true; playback_error := None; tempfile_removed := true |};
     clock := fun _ => "12:00";
     dice := fun _ => 0%nat;
     trace := [] |}.

Definition light_rain : value :=
  VDict [("weather", VList [VDict [("description", VStr "light rain")]])].

Definition paris_is_rainy : World :=
  quiet_world (fun _ _ => Response 200 (Some light_rain)).

Definition not_found : World :=
  quiet_world (fun _ _ => Response 404 (Some (VDict [("cod", VStr "404")]))).

Definition empty_payload : World :=
  quiet_world (fun _ _ => Response 200 (Some (VDict []))).

Definition unreachable : World :=
  quiet_world (fun _ _ => NetworkFailure).

(** *** Properties of [get_weather] *)

Lemma get_weather_request (self : t) (city_name : string) (w : World) :
  final_self (get_weather city_name self w) = self /\
  exists rest,
    trace (final_world (get_weather city_name self w))
    = (trace w ++ HttpGet (request_url self city_name) :: rest)%list /\
    (rest = [] \/ exists line, rest = [Print line]).
Proof.
  unfold get_weather, bind, get_self, requests_get, lift, print, emit, ret,
    final_self, final_world.
  destruct (backend w (now w) (request_url self city_name)) as [|code body]; simpl.
  - split; [reflexivity|]. exists []. split; [reflexivity | now left].
  - destruct (code =? 200).
    + destruct (response_json body) as [d|e]; simpl;
        [destruct (getitem_str d "weather") as [f|e]; simpl;
         [destruct (getitem_int f 0) as [g|e]; simpl;
          [destruct (getitem_str g "description") as [h|e]; simpl|]|]|];
        (split; [reflexivity|]; exists []; split; [reflexivity | now left]).
    + simpl. split; [reflexivity|]. eexists. split.
      * rewrite <- app_assoc. reflexivity.
      * right. eexists. reflexivity.
Qed.

(** C5. For every place and credential the adapter issues exactly one HTTP
    GET, to the base URL with the query [q=<place>&appid=<credential>]; when
    the answer is a 200 response whose payload is a dictionary with a
    [weather] list whose first element is a dictionary with a [description]
    entry, that entry is what the adapter returns. *)
Theorem get_weather_returns_description (self : t) (city_name : string) (w : World) :
  (exists rest,
     trace (final_world (get_weather city_name self w))
     = (trace w ++ HttpGet (base_url self ++ "?q=" ++ city_name ++ "&appid=" ++ api_key self)%string
                :: rest)%list /\
     (rest = [] \/ exists line, rest = [Print line])) /\
  (forall payload first others description,
     backend w (now w) (request_url self city_name) = Response 200 (Some (VDict payload)) ->
     dict_get payload "weather" = Some (VList (VDict first :: others)) ->
     dict_get first "description" = Some description ->
     outcome (get_weather city_name self w) = Ok description).
Proof.
  split.
  - exact (proj2 (get_weather_request self city_name w)).
  - intros payload first others description Hnet Hweather Hdescr.
    unfold get_weather, bind, get_self, requests_get, lift, ret, outcome.
    rewrite Hnet. simpl. rewrite Hweather. simpl. rewrite Hdescr. reflexivity.
Qed.

Lemma get_weather_returns_description_witness :
  outcome (get_weather "Paris" (__init__ "secret") paris_is_rainy) = Ok (VStr "light rain") /\
  trace (final_world (get_weather "Paris" (__init__ "secret") paris_is_rainy))
  = [HttpGet "http://api.openweathermap.org/data/2.5/weather?q=Paris&appid=secret"].
Proof.
  split.
  - apply (proj2 (get_weather_returns_description (__init__ "secret") "Paris" paris_is_rainy)
             [("weather", VList [VDict [("description", VStr "light rain")]])]
             [("description", VStr "light rain")] [] (VStr "light rain"));
      reflexivity.
  - reflexivity.
Defined.

(** The outcome of [get_weather] by kind of answer. A response whose status
    is not 200 yields the unavailable signal [None], after one diagnostic
    line, and nothing is raised. For every other failure the call ends with
    the exception of the failing step: a network failure, a body that is not
    JSON, a payload without [weather[0].description]. *)
Theorem get_weather_failures (self : t) (city_name : string) (w : World) :
  (forall code body,
     backend w (now w) (request_url self city_name) = Response code body ->
     code <> 200 ->
     outcome (get_weather city_name self w) = Ok VNone) /\
  (backend w (now w) (request_url self city_name) = NetworkFailure ->
   outcome (get_weather city_name self w) = Raise ConnectionError) /\
  (backend w (now w) (request_url self city_name) = Response 200 None ->
   outcome (get_weather city_name self w) = Raise JSONDecodeError) /\
  (forall payload e,
     backend w (now w) (request_url self city_name) = Response 200 (Some payload) ->
     (getitem_str payload "weather" = Raise e \/
      (exists forecasts, getitem_str payload "weather" = Ok forecasts /\
         (getitem_int forecasts 0 = Raise e \/
          exists first, getitem_int forecasts 0 = Ok first /\
                        getitem_str first "description" = Raise e))) ->
     outcome (get_weather city_name self w) = Raise e).
Proof.
  unfold get_weather, bind, get_self, requests_get, lift, print, emit, ret, outcome.
  repeat split.
  - intros code body Hnet Hcode. rewrite Hnet.
    apply Z.eqb_neq in Hcode. rewrite Hcode. reflexivity.
  - intros Hnet. rewrite Hnet. reflexivity.
  - intros Hnet. rewrite Hnet. reflexivity.
  - intros payload e Hnet Hbad. rewrite Hnet. simpl.
    destruct Hbad as [H1 | (f & H1 & [H2 | (g & H2 & H3)])].
    + rewrite H1. reflexivity.
    + rewrite H1. simpl. rewrite H2. reflexivity.
    + rewrite H1. simpl. rewrite H2. simpl. rewrite H3. reflexivity.
Qed.

Lemma get_weather_failures_witness :
  outcome (get_weather "Paris" (__init__ "secret") not_found) = Ok VNone.
Proof.
  apply (proj1 (get_weather_failures (__init__ "secret") "Paris" not_found)
           404 (Some (VDict [("cod", VStr "404")]))).
  - reflexivity.
  - lia.
Defined.

(** C6, on the code. The docstring of [get_weather] promises [None] whenever
    the request does not succeed, and the status test is the degradation it
    attempts; the method has no handler for the other failures. A 200
    response whose payload has no [weather] entry makes the call raise
    KeyError, and an unreachable backend makes it raise the transport's
    exception: neither yields the unavailable signal. *)
Lemma get_weather_raises_on_malformed_payload :
  outcome (get_weather "Paris" (__init__ "secret") empty_payload) = Raise (KeyError "weather") /\
  outcome (get_weather "Paris" (__init__ "secret") unreachable) = Raise ConnectionError.
Proof. split; reflexivity. Qed.

(** C8. Two successive calls with the same place on the same adapter, against
    a backend that answers this request the same way at both instants, have
    the same outcome. *)
Theorem get_weather_twice (self : t) (city_name : string) (w : World) :
  let first_call := get_weather city_name self w in
  let second_call := get_weather city_name (final_self first_call) (final_world first_call) in
  backend w (now (final_world first_call)) (request_url self city_name)
  = backend w (now w) (request_url self city_name) ->
  outcome second_call = outcome first_call.
Proof.
  intros first_call second_call Hsame. subst first_call second_call.
  revert Hsame.
  unfold get_weather, bind, get_self, requests_get, lift, print, emit, ret,
    outcome, final_self, final_world.
  destruct (backend w (now w) (request_url self city_name)) as [|code body] eqn:Hnet; simpl.
  - intros ->. reflexivity.
  - destruct (code =? 200) eqn:Hcode.
    + destruct (response_json body) as [d|e] eqn:H1; simpl;
        [destruct (getitem_str d "weather") as [f|e] eqn:H2; simpl;
         [destruct (getitem_int f 0) as [g|e] eqn:H3; simpl;
          [destruct (getitem_str g "description") as [h|e] eqn:H4; simpl|]|]|];
        intros ->; simpl; rewrite Hcode, ?H1; simpl; rewrite ?H2; simpl;
        rewrite ?H3; simpl; rewrite ?H4; reflexivity.
    + simpl. intros ->. rewrite Hcode. reflexivity.
Qed.

Lemma get_weather_twice_witness :
  outcome (get_weather "Paris" (__init__ "secret")
             (final_world (get_weather "Paris" (__init__ "secret") paris_is_rainy)))
  = outcome (get_weather "Paris" (__init__ "secret") paris_is_rainy).
Proof.
  apply (get_weather_twice (__init__ "secret") "Paris" paris_is_rainy).
  reflexivity.
Defined.

(** C9. Whatever the backend answers, and whether the call returns or raises,
    the adapter after [get_weather] is the adapter before it: [api_key] and
    [base_url] keep their values. *)
Theorem get_weather_frame (self : t) (city_name : string) (w : World) :
  api_key (final_self (get_weather city_name self w)) = api_key self /\
  base_url (final_self (get_weather city_name self w)) = base_url self.
Proof.
  rewrite (proj1 (get_weather_request self city_name w)). split; reflexivity.
Qed.

(** *** Further properties of [get_weather] *)

(** X1. A call sends exactly one request, and prints a diagnostic line, which
    names the status and the requested URL, exactly when a response came
    back with a status other than 200; a network failure and a 200 response,
    well-formed or not, print nothing. *)
Theorem get_weather_diagnostic (self : t) (city_name : string) (w : World) :
  trace (final_world (get_weather city_name self w))
  = (trace w ++ HttpGet (request_url self city_name)
       :: match backend w (now w) (request_url self city_name) with
          | NetworkFailure => []
          | Response code _ =>
              if code =? 200 then []
              else [Print ("[!] HTTP " ++ str_of_int code ++ " calling ["
                           ++ request_url self city_name ++ "]")]
          end)%list.
Proof.
  unfold get_weather, bind, get_self, requests_get, lift, print, emit, ret, final_world.
  destruct (backend w (now w) (request_url self city_name)) as [|code body]; simpl.
  - reflexivity.
  - destruct (code =? 200).
    + destruct (response_json body) as [d|e]; simpl;
        [destruct (getitem_str d "weather") as [f|e]; simpl;
         [destruct (getitem_int f 0) as [g|e]; simpl;
          [destruct (getitem_str g "description") as [h|e]; simpl|]|]|];
        reflexivity.
    + simpl. rewrite <- app_assoc. reflexivity.
Qed.

Example not_found_diagnostic :
  trace (final_world (get_weather "Paris" (__init__ "secret") not_found))
  = [HttpGet "http://api.openweathermap.org/data/2.5/weather?q=Paris&appid=secret";
     Print "[!] HTTP 404 calling [http://api.openweathermap.org/data/2.5/weather?q=Paris&appid=secret]"].
Proof. reflexivity. Qed.

(** X2. The exception a malformed 200 payload ends in tells what is missing:
    KeyError on [weather] when the payload is a dictionary without that
    entry, IndexError when the [weather] list is empty, KeyError on
    [description] when the first forecast is a dictionary without it, and
    TypeError when the payload is a list and not a dictionary. *)
Theorem get_weather_malformed_payload (self : t) (city_name : string) (w : World)
    (payload : value) :
  backend w (now w) (request_url self city_name) = Response 200 (Some payload) ->
  (forall fields,
     payload = VDict fields -> dict_get fields "weather" = None ->
     outcome (get_weather city_name self w) = Raise (KeyError "weather")) /\
  (forall fields,
     payload = VDict fields -> dict_get fields "weather" = Some (VList []) ->
     outcome (get_weather city_name self w) = Raise (IndexError "list index out of range")) /\
  (forall fields first others,
     payload = VDict fields ->
     dict_get fields "weather" = Some (VList (VDict first :: others)) ->
     dict_get first "description" = None ->
     outcome (get_weather city_name self w) = Raise (KeyError "description")) /\
  (forall items,
     payload = VList items ->
     outcome (get_weather city_name self w)
     = Raise (TypeError "list indices must be integers or slices, not str")).
Proof.
  intros Hnet.
  unfold get_weather, bind, get_self, requests_get, lift, ret, outcome.
  rewrite Hnet. simpl.
  repeat split.
  - intros fields -> Hweather. simpl. rewrite Hweather. reflexivity.
  - intros fields -> Hweather. simpl. rewrite Hweather. reflexivity.
  - intros fields first others -> Hweather Hdescr. simpl. rewrite Hweather. simpl.
    rewrite Hdescr. reflexivity.
  - intros items ->. reflexivity.
Qed.

Definition no_forecast : World :=
  quiet_world (fun _ _ => Response 200 (Some (VDict [("weather", VList [])]))).

Lemma get_weather_malformed_payload_witness :
  outcome (get_weather "Paris" (__init__ "secret") no_forecast)
  = Raise (IndexError "list index out of range").
Proof.
  destruct (get_weather_malformed_payload (__init__ "secret") "Paris" no_forecast
              (VDict [("weather", VList [])]) eq_refl) as (_ & Hempty & _).
  apply (Hempty [("weather", VList [])]); reflexivity.
Defined.

End WeatherAdapter.

(** ** Strings as the dispatcher uses them *)

(** [s.find(sub)]: the first position of [sub] in [s], or -1. *)
Definition find (s sub : string) : Z :=
  match String.index 0 sub s with
  | Some n => Z.of_nat n
  | None => -1
  end.

Fixpoint drop (n : nat) (s : string) : string :=
  match n, s with
  | O, _ => s
  | S n', String _ s' => drop n' s'
  | S _, EmptyString => EmptyString
  end.

(** [s[k:]]: a negative [k] counts from the end and is clipped at 0. *)
Definition slice_from (s : string) (k : Z) : string :=
  let n := Z.of_nat (String.length s) in
  let j := if k <? 0 then Z.max 0 (k + n) else k in
  drop (Z.to_nat j) s.

(** The ASCII characters for which [str.isspace] holds. *)
Definition is_space (c : ascii) : bool :=
  let n := nat_of_ascii c in
  ((9 <=? n) && (n <=? 13) || (28 <=? n) && (n <=? 32))%nat.

Fixpoint lstrip (s : string) : string :=
  match s with
  | String c s' => if is_space c then lstrip s' else s
  | EmptyString => EmptyString
  end.

Fixpoint rstrip (s : string) : string :=
  match s with
  | String c s' =>
      match rstrip s' with
      | EmptyString => if is_space c then EmptyString else String c EmptyString
      | r => String c r
      end
  | EmptyString => EmptyString
  end.

(** [s.strip()]. *)
Definition strip (s : string) : string := rstrip (lstrip s).

(** [str(e)] for an exception, as the diagnostics interpolate it. *)
Definition str_of_exn (e : exn) : string :=
  match e with
  | AttributeError a => "object has no attribute '" ++ a ++ "'"
  | TypeError m | IndexError m | RequestError m | OtherException m => m
  | KeyError k => "'" ++ k ++ "'"
  | UnboundLocalError v => "local variable '" ++ v ++ "' referenced before assignment"
  | JSONDecodeError => "Expecting value"
  | ConnectionError => "connection failed"
  | UnknownValueError | OSError | KeyboardInterrupt => ""
  end.

(** [a > b] on similarity scores. *)
Definition Qgtb (a b : Q) : bool := negb (Qle_bool a b).

(** ** chatbot.py *)

Module ChatBot.

(** A span found by the entity recogniser: [ent.text] and [ent.label_]. *)
Record entity : Type := {
  ent_text : string;
  label_ : string
}.

Section Dispatcher.

(** The tensor library. An embedding batch is the list of its rows; the
    library decides what subscripting a batch with a tensor gives
    ([batch[i]]), what integer a tensor stands for where Python needs an
    index ([i.__index__()]), and the cosine similarity of two rows. *)
Variable Tensor : Type.
Variable tensor_getitem : list Tensor -> Tensor -> result Tensor.
Variable tensor_index : Tensor -> result Z.
Variable pytorch_cos_sim : Tensor -> Tensor -> Q.

(** How an f-string renders a payload value that is not a string. *)
Variable format_value : value -> string.

(** The attributes [__init__] binds, in the order it binds them. The last
    two are bound after the intent table has been evaluated, so they may be
    missing while a method runs. *)
Record t : Type := {
  name : string;
  text : string;
  chat : string -> string;
  similarity_model : list string -> list Tensor;
  city_identifier : string -> list entity;
  exit_flag : bool;
  expected_inputs : option (list (string * string));
  weather : option WeatherAdapter.t
}.

Definition set_text (v : string) (self : t) : t :=
  {| name := name self; text := v; chat := chat self;
     similarity_model := similarity_model self;
     city_identifier := city_identifier self; exit_flag := exit_flag self;
     expected_inputs := expected_inputs self; weather := weather self |}.

Definition set_exit_flag (v : bool) (self : t) : t :=
  {| name := name self; text := text self; chat := chat self;
     similarity_model := similarity_model self;
     city_identifier := city_identifier self; exit_flag := v;
     expected_inputs := expected_inputs self; weather := weather self |}.

Definition set_expected_inputs (v : list (string * string)) (self : t) : t :=
  {| name := name self; text := text self; chat := chat self;
     similarity_model := similarity_model self;
     city_identifier := city_identifier self; exit_flag := exit_flag self;
     expected_inputs := Some v; weather := weather self |}.

Definition set_weather (v : WeatherAdapter.t) (self : t) : t :=
  {| name := name self; text := text self; chat := chat self;
     similarity_model := similarity_model self;
     city_identifier := city_identifier self; exit_flag := exit_flag self;
     expected_inputs := expected_inputs self; weather := Some v |}.

Definition modify (f : t -> t) : M t unit := fun s w => (Ok tt, f s, w).

(** Reading an attribute that may not be bound yet. *)
Definition attribute {A : Type} (attr : string) (slot : option A) : M t A :=
  match slot with
  | Some v => ret v
  | None => raise (AttributeError attr)
  end.

(** A method of the adapter called on [self.weather]. *)
Definition on_weather {A : Type} (m : M WeatherAdapter.t A) : M t A :=
  fun s w =>
    match weather s with
    | None => (Raise (AttributeError "weather"), s, w)
    | Some adapter =>
        match m adapter w with
        | (r, adapter', w') => (r, set_weather adapter' s, w')
        end
    end.

(** *** Collaborators *)

(** [recognizer.listen(mic)] followed by [recognizer.recognize_google(audio)]. *)
Definition listen : M t string :=
  fun s w =>
    match microphone w (now w) with
    | Recognized heard => (Ok heard, s, record Listen w)
    | Fails e => (Raise e, s, record Listen w)
    end.

(** [logging.error(message)]. *)
Definition logging_error (message : string) : M t unit := emit (LogError message).

(** [np.random.choice(options)]. *)
Definition random_choice (options : list string) : M t string :=
  fun s w =>
    (Ok (nth (dice w (now w) mod List.length options) options ""), s,
     record (RandomChoice options) w).

(** [datetime.datetime.now().strftime('%H:%M')]. *)
Definition strftime_now : M t string :=
  fun s w => (Ok (clock w (now w)), s, record ReadClock w).

(** [self.city_identifier(text).ents]. *)
Definition entities (text : string) : M t (list entity) :=
  fun s w => (Ok (city_identifier s text), s, record (Entities text) w).

(** [self.similarity_model.encode(batch, convert_to_tensor=True)]. *)
Definition encode (batch : list string) : M t (list Tensor) :=
  fun s w => (Ok (similarity_model s batch), s, record (Encode batch) w).

(** [str(pipeline(Conversation(text), pad_token_id=50256))]. *)
Definition converse (pipeline : string -> string) (text : string) : M t string :=
  fun s w => (Ok (pipeline text), s, record (Dialogue text) w).

(** *** speech_to_text and text_to_speech *)

Definition speech_to_text : M t unit :=
  try_except
    (print "Listening..." ;;
     heard <- listen ;;
     modify (set_text heard) ;;
     print ("Me  >>>  " ++ heard))
    is_Exception
    (fun e =>
       modify (set_text "ERROR") ;;
       match e with
       | UnknownValueError =>
           logging_error "Google Speech Recognition could not understand audio"
       | RequestError m =>
           logging_error
             ("Could not request results from Google Speech Recognition service; " ++ m)
       | _ => logging_error ("An error occurred: " ++ str_of_exn e)
       end).

(** What this synthesis will meet. *)
Definition synthesis : M t tts_outcome :=
  fun s w => (Ok (synthesiser w (now w)), s, w).

Definition text_to_speech (response : string) : M t unit :=
  self <- get_self ;;
  print (name self ++ " -->  " ++ response) ;;
  o <- synthesis ;;
  try_finally
    (try_except
       (if tempfile_created o then
          emit (Speak response) ;;
          match playback_error o with
          | Some e => raise e
          | None => ret tt
          end
        else raise OSError)
       is_Exception
       (fun e =>
          print ("An error occurred during text-to-speech conversion: " ++ str_of_exn e)))
    (try_except
       (if tempfile_created o then
          if tempfile_removed o then ret tt else raise OSError
        else raise (UnboundLocalError "fp"))
       is_OSError
       (fun e => print ("Error removing temporary audio file: " ++ str_of_exn e))).

(** *** The actions *)

Definition wake_up (text : string) : M t string :=
  self <- get_self ;;
  ret ("Hello I am " ++ name self
       ++ " your AI assistant. Please ask for one thing at a time, I'm not all that smart. What can I do for you?").

Definition farewells : list string :=
  ["Cheerio"; "Ta-ta"; "Pip-Pip"; "Take care, old chap"; "Until next time";
   "Ok, off you pop"].

Definition sleep (text : string) : M t string :=
  modify (set_exit_flag true) ;;
  random_choice farewells.

Definition welcomes : list string :=
  ["You're welcome!"; "Anytime!"; "No problem!"; "Cheers!"; "All good!";
   "No worries!"; "Don't mention it!"; "It's nothing!"; "My pleasure!";
   "Happy to help!"].

Definition thank_you : M t string := random_choice welcomes.

(** The loop over [statement.ents], which stops at the first entity labelled
    GPE. *)
Fixpoint first_city (ents : list entity) : option string :=
  match ents with
  | [] => None
  | ent :: rest =>
      if String.eqb (label_ ent) "GPE" then Some (ent_text ent) else first_city rest
  end.

(** [if city:] holds for a string that is not empty. *)
Definition truthy (city : option string) : bool :=
  match city with
  | Some (String _ _) => true
  | _ => false
  end.

Definition render (v : value) : string :=
  match v with
  | VStr s => s
  | _ => format_value v
  end.

Definition no_city_message : string :=
  "I say, old chap, one must specify a city to inquire about the weather.".

Definition apology : string :=
  "My apologies, but I regret to inform you that I was unable to procure the weather information for your request.".

Definition get_weather : M t string :=
  self <- get_self ;;
  statement <- entities (text self) ;;
  let city := first_city statement in
  if truthy city then
    let city := match city with Some c => c | None => "" end in
    city_weather <- on_weather (WeatherAdapter.get_weather city) ;;
    match city_weather with
    | VNone => ret apology
    | _ =>
        ret ("Ah, in " ++ city ++ ", one observes the weather to be "
             ++ render city_weather ++ ". Quite intriguing, wouldn't you agree?")
    end
  else ret no_city_message.

Definition get_time : M t string := strftime_now.

(** *** handle_conversation *)

(** The body of [for i in expected_input_embeddings[1:]]: the loop variable
    [i] is a row of the batch; it subscripts the batch (line 276) and, when
    the score is a new maximum, the list of phrases (line 278). *)
Fixpoint best_match_loop (expected_input_embeddings : list Tensor)
    (expected_input_list : list string) (rows : list Tensor)
    (best : Q * option string) : result (Q * option string) :=
  match rows with
  | [] => Ok best
  | i :: rows' =>
      match list_getitem expected_input_embeddings 0 with
      | Raise e => Raise e
      | Ok captured =>
          match tensor_getitem expected_input_embeddings i with
          | Raise e => Raise e
          | Ok phrase =>
              let similarity := pytorch_cos_sim captured phrase in
              if Qgtb similarity (fst best) then
                match tensor_index i with
                | Raise e => Raise e
                | Ok k =>
                    match list_getitem expected_input_list k with
                    | Raise e => Raise e
                    | Ok matched =>
                        best_match_loop expected_input_embeddings expected_input_list
                          rows' (similarity, Some matched)
                    end
                end
              else
                best_match_loop expected_input_embeddings expected_input_list rows' best
          end
      end
  end.

(** [self.expected_inputs[best_match]]. *)
Definition table_getitem (table : list (string * string)) (key : option string)
    : result string :=
  match key with
  | None => Raise (KeyError "None")
  | Some k =>
      match dict_get table k with
      | Some v => Ok v
      | None => Raise (KeyError k)
      end
  end.

Definition instance_attributes : list string :=
  ["name"; "text"; "chat"; "similarity_model"; "city_identifier"; "exit_flag";
   "expected_inputs"; "weather"].

Definition methods : list string :=
  ["speech_to_text"; "text_to_speech"; "wake_up"; "sleep"; "thank_you";
   "get_weather"; "get_time"; "handle_conversation"; "run"].

(** [self.<attr>] read in order to call it on a conversation: [chat] holds
    the pipeline; another attribute or a method is not a pipeline; a name
    that neither [__init__] nor the class binds raises AttributeError. *)
Definition pipeline_attribute (self : t) (attr : string) : result (string -> string) :=
  if String.eqb attr "chat" then Ok (chat self)
  else if existsb (String.eqb attr) (instance_attributes ++ methods)%list then
    Raise (TypeError ("'" ++ attr ++ "' is not a conversational pipeline"))
  else Raise (AttributeError attr).

Definition threshold : Q := 7 # 10.

Definition reprompt : string := "Sorry, come again?".

Definition handle_conversation : M t string :=
  self <- get_self ;;
  if String.eqb (text self) "ERROR" then ret reprompt
  else
    table <- attribute "expected_inputs" (expected_inputs self) ;;
    let expected_input_list := text self :: map fst table in
    expected_input_embeddings <- encode expected_input_list ;;
    best <- lift (best_match_loop expected_input_embeddings expected_input_list
                    (tl expected_input_embeddings) (-1 # 1, None)) ;;
    let '(max_similarity, best_match) := best in
    if Qgtb max_similarity threshold then
      lift (table_getitem table best_match)
    else
      nlp <- lift (pipeline_attribute self "nlp") ;;
      res <- converse nlp (text self) ;;
      ret (strip (slice_from res (find res "bot >> " + 6))).

(** *** run *)

Definition closing (self : t) : string := "<<<< Closing down " ++ name self ++ " >>>>".

Definition iteration : M t unit :=
  speech_to_text ;;
  response <- handle_conversation ;;
  text_to_speech response.

(** [while not self.exit_flag: ...] followed by the closing notice; [None]
    when the fuel does not reach the end of the loop. *)
Fixpoint run_loop (fuel : nat) (self : t) (w : World) : option (result unit * t * World) :=
  match fuel with
  | O => None
  | S fuel' =>
      if exit_flag self then Some (print (closing self) self w)
      else
        match iteration self w with
        | (Ok _, self', w') => run_loop fuel' self' w'
        | (Raise e, self', w') => Some (Raise e, self', w')
        end
  end.

Definition run (fuel : nat) (self : t) (w : World) : option (result unit * t * World) :=
  run_loop fuel (set_exit_flag false self) w.

(** *** __init__ *)

(** A call of a method declared [def m(self, text)]: Python binds the
    positional arguments first and raises TypeError, before the body runs,
    when their number is not the declared one. *)
Definition call_with_text {A : Type} (method : string) (m : string -> M t A)
    (args : list string) : M t A :=
  match args with
  | [a] => m a
  | [] => raise (TypeError (method ++ "() missing 1 required positional argument: 'text'"))
  | _ => raise (TypeError (method ++ "() takes 2 positional arguments but more were given"))
  end.

(** [__init__], given the three models it loads. The dictionary display
    evaluates its values in order, each by calling the method at once. The
    name [WeatherAdapter] is bound to the module [weather_adapter], which is
    not callable. *)
Definition __init__ (bot_name : string) (pipeline : string -> string)
    (model : list string -> list Tensor) (recogniser : string -> list entity)
    : World -> result unit * t * World :=
  (print ("<<<< Starting up " ++ bot_name ++ " >>>>") ;;
   current_weather <- get_weather ;;
   time <- get_time ;;
   thanks <- thank_you ;;
   farewell <- call_with_text "sleep" sleep [] ;;
   greeting <- call_with_text "wake_up" wake_up [] ;;
   modify (set_expected_inputs
             [("Current Weather in the city", current_weather);
              ("What is the time?", time);
              ("Thank you", thanks);
              ("Close Down", farewell);
              ("Wake Up {self.name}", greeting)]) ;;
   modify (set_exit_flag false) ;;
   adapter <- raise (TypeError "'module' object is not callable") ;;
   modify (set_weather adapter))
    {| name := bot_name; text := ""; chat := pipeline;
       similarity_model := model; city_identifier := recogniser;
       exit_flag := false; expected_inputs := None; weather := None |}.

(** *** What the methods leave unchanged *)

Lemma speech_to_text_exit_flag (self : t) (w : World) :
  exit_flag (final_self (speech_to_text self w)) = exit_flag self.
Proof.
  unfold speech_to_text, try_except, bind, print, emit, listen, modify,
    logging_error, final_self.
  destruct (microphone (record (Print "Listening...") w)
              (now (record (Print "Listening...") w))) as [heard|e];
    simpl; [reflexivity|].
  destruct e; reflexivity.
Qed.

Lemma text_to_speech_self (response : string) (self : t) (w : World) :
  final_self (text_to_speech response self w) = self.
Proof.
  unfold text_to_speech, synthesis, try_finally, try_except, bind, get_self,
    print, emit, raise, ret, final_self.
  simpl.
  match goal with
  | |- context [synthesiser ?a ?b] =>
      destruct (synthesiser a b) as [created playback removed]
  end.
  simpl. destruct created, removed; simpl.
  all: try reflexivity.
  all: destruct playback as [e|]; simpl.
  all: try reflexivity.
  all: destruct e; reflexivity.
Qed.

(** The dispatcher, case by case: the sentinel is answered at once; a
    missing table, a failing subscript in the loop and a missing entry are
    raised; a maximum above the threshold returns the entry stored in the
    table; otherwise the attribute [nlp] is read, which no ChatBot has. In
    every case [self] is unchanged and the only interaction is the batched
    call to the embedding model. *)
Lemma handle_conversation_cases (self : t) (w : World) :
  handle_conversation self w =
  if String.eqb (text self) "ERROR" then (Ok reprompt, self, w)
  else
    match expected_inputs self with
    | None => (Raise (AttributeError "expected_inputs"), self, w)
    | Some table =>
        let batch := text self :: map fst table in
        match best_match_loop (similarity_model self batch) batch
                (tl (similarity_model self batch)) (-1 # 1, None) with
        | Raise e => (Raise e, self, record (Encode batch) w)
        | Ok (max_similarity, best_match) =>
            if Qgtb max_similarity threshold then
              (table_getitem table best_match, self, record (Encode batch) w)
            else (Raise (AttributeError "nlp"), self, record (Encode batch) w)
        end
    end.
Proof.
  unfold handle_conversation, bind, get_self, ret, attribute, raise, encode, lift.
  destruct (String.eqb (text self) "ERROR"); [reflexivity|].
  destruct (expected_inputs self) as [table|]; [|reflexivity].
  simpl.
  destruct (best_match_loop _ _ _ _) as [[m b]|e]; [|reflexivity].
  destruct (Qgtb m threshold).
  - destruct (table_getitem table b); reflexivity.
  - reflexivity.
Qed.

Lemma handle_conversation_self (self : t) (w : World) :
  final_self (handle_conversation self w) = self.
Proof.
  rewrite handle_conversation_cases.
  destruct (String.eqb (text self) "ERROR"); [reflexivity|].
  destruct (expected_inputs self) as [table|]; [|reflexivity].
  cbv zeta.
  destruct (best_match_loop _ _ _ _) as [[m b]|e]; [|reflexivity].
  destruct (Qgtb m threshold); reflexivity.
Qed.

Lemma iteration_exit_flag (self : t) (w : World) :
  exit_flag (final_self (iteration self w)) = exit_flag self.
Proof.
  unfold iteration, bind.
  pose proof (speech_to_text_exit_flag self w) as H1.
  destruct (speech_to_text self w) as [[r1 s1] w1].
  unfold final_self in H1 |- *. simpl in H1.
  destruct r1 as [u|e]; [|exact H1].
  pose proof (handle_conversation_self s1 w1) as H2.
  destruct (handle_conversation s1 w1) as [[r2 s2] w2].
  unfold final_self in H2. simpl in H2. subst s2.
  destruct r2 as [response|e]; [|exact H1].
  pose proof (text_to_speech_self response s1 w2) as H3.
  unfold final_self in H3. rewrite H3. exact H1.
Qed.

Lemma on_weather_exit_flag {A : Type} (m : M WeatherAdapter.t A) (self : t) (w : World) :
  exit_flag (final_self (on_weather m self w)) = exit_flag self.
Proof.
  unfold on_weather, final_self.
  destruct (weather self) as [adapter|]; [|reflexivity].
  destruct (m adapter w) as [[r a] w']. reflexivity.
Qed.

Lemma get_weather_exit_flag (self : t) (w : World) :
  exit_flag (final_self (get_weather self w)) = exit_flag self.
Proof.
  unfold get_weather, bind, get_self, entities, ret.
  destruct (truthy (first_city (city_identifier self (text self)))); [|reflexivity].
  pose proof (on_weather_exit_flag
                (WeatherAdapter.get_weather
                   match first_city (city_identifier self (text self)) with
                   | Some c => c
                   | None => ""
                   end) self (record (Entities (text self)) w)) as H.
  destruct (on_weather _ self _) as [[r s1] w1].
  unfold final_self in H |- *. simpl in H.
  destruct r as [v|e]; [|exact H].
  destruct v; exact H.
Qed.

(** *** The run loop *)

Lemma run_loop_exit (fuel : nat) (self : t) (w : World) :
  exit_flag self = true ->
  run_loop (S fuel) self w = Some (Ok tt, self, record (Print (closing self)) w).
Proof. intros H. simpl. rewrite H. reflexivity. Qed.

Lemma run_loop_step (fuel : nat) (self : t) (w : World) :
  exit_flag self = false ->
  run_loop (S fuel) self w =
  match iteration self w with
  | (Ok _, self', w') => run_loop fuel self' w'
  | (Raise e, self', w') => Some (Raise e, self', w')
  end.
Proof. intros H. simpl. rewrite H. reflexivity. Qed.

Lemma run_loop_returns (fuel : nat) :
  forall (self : t) (w : World) (self' : t) (w' : World),
    run_loop fuel self w = Some (Ok tt, self', w') ->
    exit_flag self' = true /\
    exit_flag self = true /\
    w' = record (Print (closing self')) w.
Proof.
  induction fuel as [|fuel IH]; intros self w self' w' H; [discriminate|].
  simpl in H. destruct (exit_flag self) eqn:Hflag.
  - unfold print, emit in H. injection H as <- <-. auto.
  - pose proof (iteration_exit_flag self w) as Hkeep.
    destruct (iteration self w) as [[r s1] w1].
    unfold final_self in Hkeep. simpl in Hkeep.
    destruct r as [u|e]; [|discriminate].
    destruct (IH s1 w1 self' w' H) as (_ & Hs1 & _).
    congruence.
Qed.

(** The loop of [run] starts with the flag cleared, and nothing in an
    iteration sets it: [run] never reaches its closing notice. *)
Lemma run_never_returns (fuel : nat) (self : t) (w : World) (self' : t) (w' : World) :
  run fuel self w <> Some (Ok tt, self', w').
Proof.
  unfold run. intros H.
  destruct (run_loop_returns fuel _ _ _ _ H) as (_ & Hflag & _).
  discriminate.
Qed.

(** *** The sentinel *)

(** C3. When the captured text is the recognition-failure sentinel, the
    dispatcher returns the fixed re-prompt at once: the session and the world
    are exactly as before, so the embedding model has not been called and no
    intent matching has been attempted. *)
Theorem handle_conversation_sentinel (self : t) (w : World) :
  text self = "ERROR" ->
  handle_conversation self w = (Ok "Sorry, come again?", self, w) /\
  trace (final_world (handle_conversation self w)) = trace w.
Proof.
  intros H. rewrite handle_conversation_cases, H. split; reflexivity.
Qed.

(** What the recogniser answers to the utterance that [speech_to_text]
    captures in world [w] (after its prompt line). *)
Definition heard_at (w : World) : sr_outcome :=
  microphone w (now (record (Print "Listening...") w)).

(** The first two steps of an iteration of [run]. *)
Definition capture_and_dispatch : M t string :=
  speech_to_text ;; handle_conversation.

Lemma speech_to_text_recognized (self : t) (w : World) (heard : string) :
  heard_at w = Recognized heard ->
  speech_to_text self w =
  (Ok tt, set_text heard self,
   record (Print ("Me  >>>  " ++ heard)) (record Listen (record (Print "Listening...") w))).
Proof.
  unfold heard_at. intros H.
  unfold speech_to_text, try_except, bind, print, emit, listen, modify.
  change (microphone (record (Print "Listening...") w)) with (microphone w).
  rewrite H. reflexivity.
Qed.

Lemma speech_to_text_failed (self : t) (w : World) (e : exn) :
  heard_at w = Fails e ->
  is_Exception e = true ->
  exists diagnostic,
    speech_to_text self w =
    (Ok tt, set_text "ERROR" self,
     record (LogError diagnostic) (record Listen (record (Print "Listening...") w))).
Proof.
  unfold heard_at. intros H He.
  unfold speech_to_text, try_except, bind, print, emit, listen, modify, logging_error.
  change (microphone (record (Print "Listening...") w)) with (microphone w).
  rewrite H, He. destruct e; try discriminate He; eexists; reflexivity.
Qed.

(** C10. An utterance recognised as the literal text ERROR and a failed
    recognition leave the same session behind, with the sentinel as captured
    text; the dispatcher answers both with the fixed re-prompt, and in
    neither case is the embedding model or the dialogue engine reached: the
    only interactions are those of the speech capture. *)
Theorem spoken_sentinel_is_reprompted (self : t) (spoken failed : World) (e : exn) :
  heard_at spoken = Recognized "ERROR" ->
  heard_at failed = Fails e ->
  is_Exception e = true ->
  outcome (capture_and_dispatch self spoken) = Ok reprompt /\
  outcome (capture_and_dispatch self failed) = Ok reprompt /\
  final_self (capture_and_dispatch self spoken) = set_text "ERROR" self /\
  final_self (capture_and_dispatch self failed) = set_text "ERROR" self /\
  trace (final_world (capture_and_dispatch self spoken))
  = (trace spoken ++ [Print "Listening..."; Listen; Print "Me  >>>  ERROR"])%list /\
  exists diagnostic,
    trace (final_world (capture_and_dispatch self failed))
    = (trace failed ++ [Print "Listening..."; Listen; LogError diagnostic])%list.
Proof.
  intros Hsaid Hlost He.
  destruct (speech_to_text_failed self failed e Hlost He) as [diagnostic Hfail].
  unfold capture_and_dispatch, bind.
  rewrite (speech_to_text_recognized self spoken "ERROR" Hsaid), Hfail.
  rewrite !handle_conversation_cases.
  unfold outcome, final_self, final_world. simpl.
  repeat split; try reflexivity.
  - rewrite <- !app_assoc. reflexivity.
  - exists diagnostic. rewrite <- !app_assoc. reflexivity.
Qed.

(** *** The termination flag *)

(** C4. [sleep] (the action of "Close Down") sets the termination flag;
    every other action, and every other method an iteration runs, leaves the
    flag as it was, so [sleep] is the only code that sets it. The loop of
    [run] tests the flag before each iteration: with the flag set it stops
    there and prints the closing notice; with the flag clear it runs one more
    iteration; and it returns normally only with the flag set, the closing
    notice being the last thing it did. *)
Theorem close_down_sets_exit_flag (self : t) (w : World) (utterance : string) :
  exit_flag (final_self (sleep utterance self w)) = true /\
  exit_flag (final_self (wake_up utterance self w)) = exit_flag self /\
  exit_flag (final_self (thank_you self w)) = exit_flag self /\
  exit_flag (final_self (get_weather self w)) = exit_flag self /\
  exit_flag (final_self (get_time self w)) = exit_flag self /\
  exit_flag (final_self (speech_to_text self w)) = exit_flag self /\
  exit_flag (final_self (handle_conversation self w)) = exit_flag self /\
  exit_flag (final_self (text_to_speech utterance self w)) = exit_flag self /\
  (forall fuel,
     exit_flag self = true ->
     run_loop (S fuel) self w = Some (Ok tt, self, record (Print (closing self)) w)) /\
  (forall fuel,
     exit_flag self = false ->
     run_loop (S fuel) self w =
     match iteration self w with
     | (Ok _, self', w') => run_loop fuel self' w'
     | (Raise e, self', w') => Some (Raise e, self', w')
     end) /\
  (forall fuel self' w',
     run_loop fuel self w = Some (Ok tt, self', w') ->
     exit_flag self' = true /\
     exists before, trace w' = (before ++ [Print (closing self')])%list).
Proof.
  repeat split.
  - apply get_weather_exit_flag.
  - apply speech_to_text_exit_flag.
  - rewrite handle_conversation_self. reflexivity.
  - rewrite text_to_speech_self. reflexivity.
  - intros fuel. apply run_loop_exit.
  - intros fuel. apply run_loop_step.
  - destruct (run_loop_returns fuel _ _ _ _ H) as (Hflag & _). exact Hflag.
  - destruct (run_loop_returns fuel _ _ _ _ H) as (_ & _ & ->).
    exists (trace w). reflexivity.
Qed.

(** *** The weather intent *)

Lemma first_city_none (ents : list entity) :
  Forall (fun ent => label_ ent <> "GPE") ents -> first_city ents = None.
Proof.
  induction 1 as [|ent ents Hent _ IH]; [reflexivity|].
  simpl. apply String.eqb_neq in Hent. rewrite Hent. exact IH.
Qed.

Lemma first_city_found (before : list entity) (ent : entity) (after : list entity) :
  Forall (fun e => label_ e <> "GPE") before ->
  label_ ent = "GPE" ->
  first_city (before ++ ent :: after) = Some (ent_text ent).
Proof.
  intros Hbefore Hent.
  induction Hbefore as [|e before He _ IH]; simpl.
  - rewrite Hent. reflexivity.
  - apply String.eqb_neq in He. rewrite He. exact IH.
Qed.

(** C7. When the recogniser reports no geopolitical entity in the captured
    text, the weather intent returns the fixed message asking for a city and
    its only interaction is the call to the recogniser: no request is sent.
    When it reports some, the first one labelled GPE is the place asked for:
    the request that follows the recogniser call carries that entity's text,
    and the answer names it. *)
Theorem get_weather_asks_for_a_city (self : t) (w : World) :
  (Forall (fun ent => label_ ent <> "GPE") (city_identifier self (text self)) ->
   get_weather self w =
   (Ok "I say, old chap, one must specify a city to inquire about the weather.",
    self, record (Entities (text self)) w)) /\
  (forall before ent after adapter,
     city_identifier self (text self) = (before ++ ent :: after)%list ->
     Forall (fun e => label_ e <> "GPE") before ->
     label_ ent = "GPE" ->
     ent_text ent <> "" ->
     weather self = Some adapter ->
     (exists rest,
        trace (final_world (get_weather self w))
        = (trace w ++ Entities (text self)
             :: HttpGet (WeatherAdapter.request_url adapter (ent_text ent)) :: rest)%list) /\
     (forall description,
        outcome (WeatherAdapter.get_weather (ent_text ent) adapter
                   (record (Entities (text self)) w)) = Ok (VStr description) ->
        outcome (get_weather self w)
        = Ok ("Ah, in " ++ ent_text ent ++ ", one observes the weather to be "
              ++ description ++ ". Quite intriguing, wouldn't you agree?"))).
Proof.
  split.
  - intros Hnone. unfold get_weather, bind, get_self, entities, ret.
    rewrite (first_city_none _ Hnone). reflexivity.
  - intros before ent after adapter Hents Hbefore Hent Htext Hweather.
    assert (Htruthy : truthy (Some (ent_text ent)) = true).
    { destruct (ent_text ent); [contradiction | reflexivity]. }
    unfold get_weather, bind, get_self, entities, ret.
    rewrite Hents, (first_city_found before ent after Hbefore Hent), Htruthy.
    unfold on_weather. rewrite Hweather.
    destruct (WeatherAdapter.get_weather_request adapter (ent_text ent)
                (record (Entities (text self)) w)) as (_ & rest & Htrace & _).
    destruct (WeatherAdapter.get_weather (ent_text ent) adapter
                (record (Entities (text self)) w)) as [[r a] w1].
    unfold final_world, outcome in *. simpl in Htrace.
    split.
    + exists rest. rewrite <- app_assoc in Htrace. simpl in Htrace.
      destruct r as [v|e]; [destruct v|]; exact Htrace.
    + intros description Hr. simpl in Hr. subst r. reflexivity.
Qed.

(** *** Dispatch beyond the sentinel *)

(** Whatever the tensor library does, a completed search whose maximum
    exceeds the threshold returns the entry stored in the table under the
    winning phrase: no action runs, the session is unchanged. *)
Lemma handle_conversation_above_threshold (self : t) (w : World)
    (table : list (string * string)) (max_similarity : Q) (best_match : option string) :
  text self <> "ERROR" ->
  expected_inputs self = Some table ->
  best_match_loop (similarity_model self (text self :: map fst table))
    (text self :: map fst table)
    (tl (similarity_model self (text self :: map fst table))) (-1 # 1, None)
  = Ok (max_similarity, best_match) ->
  Qgtb max_similarity threshold = true ->
  handle_conversation self w =
  (table_getitem table best_match, self,
   record (Encode (text self :: map fst table)) w).
Proof.
  intros Htext Htable Hloop Hgt.
  rewrite handle_conversation_cases, Htable.
  apply String.eqb_neq in Htext. rewrite Htext.
  cbv zeta. rewrite Hloop, Hgt. reflexivity.
Qed.

(** Whatever the tensor library does, a completed search whose maximum does
    not exceed the threshold ends in AttributeError: the dialogue engine is
    not called. *)
Lemma handle_conversation_below_threshold (self : t) (w : World)
    (table : list (string * string)) (max_similarity : Q) (best_match : option string) :
  text self <> "ERROR" ->
  expected_inputs self = Some table ->
  best_match_loop (similarity_model self (text self :: map fst table))
    (text self :: map fst table)
    (tl (similarity_model self (text self :: map fst table))) (-1 # 1, None)
  = Ok (max_similarity, best_match) ->
  Qgtb max_similarity threshold = false ->
  handle_conversation self w =
  (Raise (AttributeError "nlp"), self,
   record (Encode (text self :: map fst table)) w).
Proof.
  intros Htext Htable Hloop Hgt.
  rewrite handle_conversation_cases, Htable.
  apply String.eqb_neq in Htext. rewrite Htext.
  cbv zeta. rewrite Hloop, Hgt. reflexivity.
Qed.

(** The constructor never completes: the intent table calls [sleep] without
    its argument (unless the weather entry has failed before that). *)
Lemma init_raises (bot_name : string) (pipeline : string -> string)
    (model : list string -> list Tensor) (recogniser : string -> list entity)
    (w : World) :
  exists e, outcome (__init__ bot_name pipeline model recogniser w) = Raise e.
Proof.
  cbv beta iota zeta delta
    [__init__ bind print emit get_weather get_self entities ret on_weather
     get_time strftime_now thank_you random_choice call_with_text raise outcome
     text city_identifier weather fst].
  destruct (truthy (first_city (recogniser ""))); eexists; reflexivity.
Qed.

(** *** Speech capture and synthesis *)

(** X3. [speech_to_text] recovers every recognition error that is an
    Exception: the call returns normally, the captured text becomes the
    sentinel and a diagnostic is logged in place of the echo of the
    utterance. A recognised utterance becomes the captured text and is echoed
    on the console. Only an interrupt, which is no Exception, escapes, and it
    leaves the captured text as it was. *)
Theorem speech_to_text_outcomes (self : t) (w : World) :
  match heard_at w with
  | Recognized heard =>
      speech_to_text self w =
      (Ok tt, set_text heard self,
       record (Print ("Me  >>>  " ++ heard))
         (record Listen (record (Print "Listening...") w)))
  | Fails e =>
      if is_Exception e then
        exists diagnostic,
          speech_to_text self w =
          (Ok tt, set_text "ERROR" self,
           record (LogError diagnostic) (record Listen (record (Print "Listening...") w)))
      else
        speech_to_text self w =
        (Raise e, self, record Listen (record (Print "Listening...") w))
  end.
Proof.
  destruct (heard_at w) as [heard|e] eqn:H.
  - apply speech_to_text_recognized. exact H.
  - destruct (is_Exception e) eqn:He.
    + apply (speech_to_text_failed self w e H He).
    + unfold heard_at in H.
      unfold speech_to_text, try_except, bind, print, emit, listen.
      change (microphone (record (Print "Listening...") w)) with (microphone w).
      rewrite H, He. reflexivity.
Qed.

(** What the synthesiser does with the response that [text_to_speech] is
    given in world [w] (after the line that echoes it). *)
Definition synthesis_at (self : t) (response : string) (w : World) : tts_outcome :=
  synthesiser w (now (record (Print (name self ++ " -->  " ++ response)) w)).

(** X4. [text_to_speech] returns normally when the temporary file could be
    created and synthesis and playback raised nothing or an Exception,
    whether or not the file could be removed afterwards. When the temporary
    file could not be created, the clean-up reads the unbound variable [fp]
    and the call ends in UnboundLocalError; an interrupt during playback
    escapes too. *)
Theorem text_to_speech_outcomes (response : string) (self : t) (w : World) :
  outcome (text_to_speech response self w) =
  if tempfile_created (synthesis_at self response w) then
    match playback_error (synthesis_at self response w) with
    | Some e => if is_Exception e then Ok tt else Raise e
    | None => Ok tt
    end
  else Raise (UnboundLocalError "fp").
Proof.
  unfold synthesis_at, text_to_speech, synthesis, try_finally, try_except, bind,
    get_self, print, emit, raise, ret, outcome.
  simpl.
  match goal with
  | |- context [synthesiser ?a ?b] =>
      destruct (synthesiser a b) as [created playback removed]
  end.
  simpl. destruct created, removed; simpl.
  all: try reflexivity.
  all: destruct playback as [e|]; simpl.
  all: try reflexivity.
  all: destruct e; reflexivity.
Qed.

(** *** Construction *)

(** X5. The constructor never completes. When the recogniser finds no city
    in the empty text, the intent table stops at [self.sleep()], called
    without its argument: TypeError. When it finds one, the weather entry
    reads [self.weather], which is bound only after the table:
    AttributeError. Either way the object is left without intent table and
    without weather adapter. *)
Theorem init_never_completes (bot_name : string) (pipeline : string -> string)
    (model : list string -> list Tensor) (recogniser : string -> list entity)
    (w : World) :
  outcome (__init__ bot_name pipeline model recogniser w)
  = (if truthy (first_city (recogniser "")) then Raise (AttributeError "weather")
     else Raise (TypeError "sleep() missing 1 required positional argument: 'text'")) /\
  expected_inputs (final_self (__init__ bot_name pipeline model recogniser w)) = None /\
  weather (final_self (__init__ bot_name pipeline model recogniser w)) = None.
Proof.
  cbv beta iota zeta delta
    [__init__ bind print emit get_weather get_self entities ret on_weather
     get_time strftime_now thank_you random_choice call_with_text raise outcome
     final_self text city_identifier weather expected_inputs fst snd].
  destruct (truthy (first_city (recogniser ""))); repeat split.
Qed.

(** *** The actions *)

Lemma random_choice_listed (options : list string) (self : t) (w : World) :
  options <> [] ->
  exists choice, outcome (random_choice options self w) = Ok choice /\ In choice options.
Proof.
  intros Hne. unfold random_choice, outcome. simpl.
  eexists. split; [reflexivity|].
  apply nth_In. apply Nat.mod_upper_bound.
  destruct options; [contradiction | discriminate].
Qed.

(** X6. Whatever the random draw, [sleep] answers with one of its six
    farewells and [thank_you] with one of its ten acknowledgements. *)
Theorem replies_are_listed (self : t) (w : World) (utterance : string) :
  (exists farewell,
     outcome (sleep utterance self w) = Ok farewell /\ In farewell farewells) /\
  (exists thanks,
     outcome (thank_you self w) = Ok thanks /\ In thanks welcomes).
Proof.
  split.
  - destruct (random_choice_listed farewells (set_exit_flag true self) w)
      as (choice & Hout & Hin); [discriminate|].
    exists choice. split; [exact Hout | exact Hin].
  - apply random_choice_listed. discriminate.
Qed.

(** X7. The weather intent leaves the whole session as it found it, captured
    text, intent table and weather adapter included, whether it answers or
    raises. *)
Theorem get_weather_session_unchanged (self : t) (w : World) :
  final_self (get_weather self w) = self.
Proof.
  unfold get_weather, bind, get_self, entities, ret.
  destruct (truthy (first_city (city_identifier self (text self)))); [|reflexivity].
  unfold on_weather.
  destruct (weather self) as [adapter|] eqn:Hweather; [|reflexivity].
  match goal with
  | |- context [WeatherAdapter.get_weather ?c adapter ?w0] =>
      pose proof (proj1 (WeatherAdapter.get_weather_request adapter c w0)) as Hsame;
      destruct (WeatherAdapter.get_weather c adapter w0) as [[r a] w1]
  end.
  unfold final_self in Hsame |- *. simpl in Hsame. subst a.
  assert (Hself : set_weather adapter self = self).
  { destruct self. simpl in Hweather. subst. reflexivity. }
  destruct r as [v|e]; [destruct v|]; simpl; exact Hself.
Qed.

(** *** More on dispatch *)

(** X8. The dispatcher consults the embedding model at most once: not at all
    for the sentinel or when the intent table is not bound, and otherwise in
    one batch made of the captured text followed by the phrases of the table
    in table order. It has no other interaction with the outside. *)
Theorem handle_conversation_one_batch (self : t) (w : World) :
  trace (final_world (handle_conversation self w))
  = if String.eqb (text self) "ERROR" then trace w
    else match expected_inputs self with
         | None => trace w
         | Some table => (trace w ++ [Encode (text self :: map fst table)])%list
         end.
Proof.
  rewrite handle_conversation_cases.
  destruct (String.eqb (text self) "ERROR"); [reflexivity|].
  destruct (expected_inputs self) as [table|]; [|reflexivity].
  cbv zeta.
  destruct (best_match_loop _ _ _ _) as [[m b]|e]; [|reflexivity].
  destruct (Qgtb m threshold); reflexivity.
Qed.

(** X9. Whenever the dispatcher returns normally, its answer is the
    re-prompt for the sentinel or a value stored in the intent table: it
    never returns a reply of the dialogue engine. *)
Theorem handle_conversation_answers (self : t) (w : World) (answer : string) :
  outcome (handle_conversation self w) = Ok answer ->
  (text self = "ERROR" /\ answer = reprompt) \/
  (exists table phrase,
     expected_inputs self = Some table /\ dict_get table phrase = Some answer).
Proof.
  rewrite handle_conversation_cases.
  destruct (String.eqb (text self) "ERROR") eqn:Htext.
  - intros H. left. apply String.eqb_eq in Htext. split; [exact Htext|].
    unfold outcome in H. simpl in H. congruence.
  - destruct (expected_inputs self) as [table|]; [|discriminate].
    cbv zeta.
    destruct (best_match_loop _ _ _ _) as [[m b]|e]; [|discriminate].
    destruct (Qgtb m threshold); [|discriminate].
    unfold outcome, table_getitem. simpl.
    destruct b as [phrase|]; [|discriminate].
    destruct (dict_get table phrase) as [v|] eqn:Hget; [|discriminate].
    intros H. right. exists table, phrase. split; [reflexivity|]. congruence.
Qed.

(** *** Dispatch with rows that cannot index *)

(** X10. With a tensor library that refuses a row of the batch as a
    subscript, as PyTorch does for the float rows of an embedding, every
    utterance other than the sentinel ends the dispatcher in the library's
    exception on the first pass of its loop, as soon as the model returns a
    row for at least one phrase of the table: the embedding model has been
    called, the session is unchanged, and neither an action nor the dialogue
    engine is reached. *)
Theorem dispatch_raises_when_rows_cannot_index (self : t) (w : World)
    (table : list (string * string)) (e : exn) :
  text self <> "ERROR" ->
  expected_inputs self = Some table ->
  tl (similarity_model self (text self :: map fst table)) <> [] ->
  (forall batch i, tensor_getitem batch i = Raise e) ->
  handle_conversation self w =
  (Raise e, self, record (Encode (text self :: map fst table)) w).
Proof.
  intros Htext Htable Hrows Hlib.
  rewrite handle_conversation_cases, Htable.
  apply String.eqb_neq in Htext. rewrite Htext. cbv zeta.
  destruct (similarity_model self (text self :: map fst table))
    as [|captured [|i rest]]; try (exfalso; apply Hrows; reflexivity).
  assert (H0 : list_getitem (captured :: i :: rest) 0 = Ok captured) by reflexivity.
  cbn [tl best_match_loop]. rewrite H0, Hlib. reflexivity.
Qed.

(** *** The weather intent when the lookup fails *)

(** What the weather source answers to the request that the weather intent
    sends in world [w] (after the call to the recogniser). *)
Definition asked_at (self : t) (w : World) (url : string) : http_outcome :=
  backend w (now (record (Entities (text self)) w)) url.

(** X11. With a city found and an adapter bound, the weather intent turns
    the adapter's unavailable signal into its apology: that is what a
    response with a status other than 200 gives, and also a 200 response
    whose description is null. It has no handler of its own: a network
    failure and a body that is not JSON leave the intent as the exception the
    adapter raised. *)
Theorem get_weather_apologises_or_raises (self : t) (w : World)
    (before : list entity) (ent : entity) (after : list entity)
    (adapter : WeatherAdapter.t) :
  city_identifier self (text self) = (before ++ ent :: after)%list ->
  Forall (fun e => label_ e <> "GPE") before ->
  label_ ent = "GPE" ->
  ent_text ent <> "" ->
  weather self = Some adapter ->
  (forall code body,
     asked_at self w (WeatherAdapter.request_url adapter (ent_text ent)) = Response code body ->
     code <> 200 ->
     outcome (get_weather self w) = Ok apology) /\
  (forall payload first others,
     asked_at self w (WeatherAdapter.request_url adapter (ent_text ent))
     = Response 200 (Some (VDict payload)) ->
     dict_get payload "weather" = Some (VList (VDict first :: others)) ->
     dict_get first "description" = Some VNone ->
     outcome (get_weather self w) = Ok apology) /\
  (asked_at self w (WeatherAdapter.request_url adapter (ent_text ent)) = NetworkFailure ->
   outcome (get_weather self w) = Raise ConnectionError) /\
  (asked_at self w (WeatherAdapter.request_url adapter (ent_text ent)) = Response 200 None ->
   outcome (get_weather self w) = Raise JSONDecodeError).
Proof.
  intros Hents Hbefore Hent Htext Hweather.
  assert (Htruthy : truthy (Some (ent_text ent)) = true).
  { destruct (ent_text ent); [contradiction | reflexivity]. }
  unfold asked_at, get_weather, bind, get_self, entities, ret, outcome.
  rewrite Hents, (first_city_found before ent after Hbefore Hent), Htruthy.
  unfold on_weather. rewrite Hweather.
  unfold WeatherAdapter.get_weather, bind, get_self, requests_get, lift, print, emit, ret.
  change (backend (record (Entities (text self)) w)) with (backend w).
  repeat split.
  - intros code body Hnet Hcode. rewrite Hnet.
    apply Z.eqb_neq in Hcode. rewrite Hcode. reflexivity.
  - intros payload first others Hnet Hforecast Hdescr. rewrite Hnet. simpl.
    rewrite Hforecast. simpl. rewrite Hdescr. reflexivity.
  - intros Hnet. rewrite Hnet. reflexivity.
  - intros Hnet. rewrite Hnet. reflexivity.
Qed.

(** *** Iterations of the loop *)

Definition working : tts_outcome :=
  {| tempfile_created := true; playback_error := None; tempfile_removed := true |}.

Lemma iteration_after_failure (self : t) (w : World) (e : exn) :
  heard_at w = Fails e ->
  is_Exception e = true ->
  (forall n, synthesiser w n = working) ->
  exists diagnostic,
    iteration self w =
    (Ok tt, set_text "ERROR" self,
     record (Speak reprompt)
       (record (Print (name self ++ " -->  " ++ reprompt))
          (record (LogError diagnostic)
             (record Listen (record (Print "Listening...") w))))).
Proof.
  intros Hheard He Hsynth.
  destruct (speech_to_text_failed self w e Hheard He) as [diagnostic Hfail].
  exists diagnostic.
  unfold iteration, bind. rewrite Hfail, handle_conversation_cases.
  cbn [text set_text String.eqb Ascii.eqb Bool.eqb].
  unfold text_to_speech, synthesis, try_finally, try_except, bind, get_self,
    print, emit, raise, ret.
  cbn [name set_text synthesiser record].
  rewrite Hsynth. reflexivity.
Qed.

(** X12. An iteration whose recognition fails is recovered in full: the
    captured text becomes the sentinel, the failure is logged, and the
    re-prompt is echoed and spoken; the iteration ends normally, so the loop
    goes on. *)
Theorem failed_recognition_is_reprompted_aloud (self : t) (w : World) (e : exn) :
  heard_at w = Fails e ->
  is_Exception e = true ->
  (forall n, synthesiser w n = working) ->
  outcome (iteration self w) = Ok tt /\
  final_self (iteration self w) = set_text "ERROR" self /\
  exists diagnostic,
    trace (final_world (iteration self w))
    = (trace w ++ [Print "Listening..."; Listen; LogError diagnostic;
                   Print (name self ++ " -->  Sorry, come again?");
                   Speak "Sorry, come again?"])%list.
Proof.
  intros Hheard He Hsynth.
  destruct (iteration_after_failure self w e Hheard He Hsynth) as [diagnostic ->].
  repeat split. exists diagnostic.
  unfold final_world. simpl. rewrite <- !app_assoc. reflexivity.
Qed.

Lemma run_loop_on_silence (fuel : nat) :
  forall (self : t) (w : World),
    exit_flag self = false ->
    (forall n, exists e, microphone w n = Fails e /\ is_Exception e = true) ->
    (forall n, synthesiser w n = working) ->
    run_loop fuel self w = None.
Proof.
  induction fuel as [|fuel IH]; intros self w Hflag Hmic Hsynth; [reflexivity|].
  rewrite run_loop_step by exact Hflag.
  destruct (Hmic (now (record (Print "Listening...") w))) as (e & Hheard & He).
  destruct (iteration_after_failure self w e Hheard He Hsynth) as [diagnostic ->].
  apply IH.
  - exact Hflag.
  - intros n. exact (Hmic n).
  - intros n. exact (Hsynth n).
Qed.

(** X13. With a microphone that never yields a recognised utterance and a
    synthesiser that works, [run] never ends: whatever the number of
    iterations allowed, it is still in its loop. *)
Theorem run_never_ends_on_silence (fuel : nat) (self : t) (w : World) :
  (forall n, exists e, microphone w n = Fails e /\ is_Exception e = true) ->
  (forall n, synthesiser w n = working) ->
  run fuel self w = None.
Proof.
  intros Hmic Hsynth. unfold run.
  apply run_loop_on_silence; [reflexivity | exact Hmic | exact Hsynth].
Qed.

(** X14. [run] never returns normally, so it never prints its closing
    notice: for every number of iterations allowed it is either still in its
    loop or has been ended by an exception. *)
Theorem run_ends_only_by_exception (fuel : nat) (self : t) (w : World) :
  run fuel self w = None \/
  exists e self' w', run fuel self w = Some (Raise e, self', w').
Proof.
  destruct (run fuel self w) as [[[r self'] w']|] eqn:Hrun; [|left; reflexivity].
  destruct r as [[]|e].
  - exfalso. exact (run_never_returns fuel self w self' w' Hrun).
  - right. exists e, self', w'. reflexivity.
Qed.

End Dispatcher.

Arguments name {Tensor} _.
Arguments text {Tensor} _.
Arguments chat {Tensor} _ _.
Arguments similarity_model {Tensor} _ _.
Arguments city_identifier {Tensor} _ _.
Arguments exit_flag {Tensor} _.
Arguments expected_inputs {Tensor} _.
Arguments weather {Tensor} _.
Arguments set_text {Tensor} _ _.
Arguments set_exit_flag {Tensor} _ _.
Arguments closing {Tensor} _.
Arguments heard_at w : simpl never.

(** ** The dispatcher on concrete sessions *)

(** A toy embedding space: a row is named by the sentence it embeds; a
    sentence is at 1 from itself, two paraphrases of thanks at 9/10, and
    anything else at 1/10. *)
Definition similarity (a b : string) : Q :=
  if String.eqb a b then 1
  else if String.eqb a "Thanks a lot" && String.eqb b "Thank you" then 9 # 10
  else 1 # 10.

(** PyTorch. The sentence embeddings are float tensors, and a float tensor
    is accepted neither as a subscript of a tensor nor as a list index. *)
Module Torch.

Definition Tensor : Type := string.

Definition model (batch : list string) : list Tensor := batch.

Definition tensor_getitem (batch : list Tensor) (i : Tensor) : result Tensor :=
  Raise (IndexError "tensors used as indices must be long, int, byte or bool tensors").

Definition tensor_index (i : Tensor) : result Z :=
  Raise (TypeError "only integer tensors of a single element can be converted to an index").

Definition pytorch_cos_sim (a b : Tensor) : Q := similarity a b.

End Torch.

(** A library in which a row of the batch can stand for its own position,
    which is what the loop of the dispatcher needs of its variable. *)
Module Positional.

Definition Tensor : Type := (Z * string)%type.

Fixpoint number (k : Z) (batch : list string) : list Tensor :=
  match batch with
  | [] => []
  | sentence :: rest => (k, sentence) :: number (k + 1) rest
  end.

Definition model (batch : list string) : list Tensor := number 0 batch.

Definition tensor_getitem (batch : list Tensor) (i : Tensor) : result Tensor :=
  list_getitem batch (fst i).

Definition tensor_index (i : Tensor) : result Z := Ok (fst i).

Definition pytorch_cos_sim (a b : Tensor) : Q := similarity (snd a) (snd b).

End Positional.

(** [str(v)] for the payload values that are not strings (containers
    abridged). *)
Definition str_of_value (v : value) : string :=
  match v with
  | VNone => "None"
  | VBool true => "True"
  | VBool false => "False"
  | VNum lexeme => lexeme
  | VStr s => s
  | VList _ => "[...]"
  | VDict _ => "{...}"
  end.

Definition newline : string := String (ascii_of_nat 10) EmptyString.

(** A dialogue engine that always gives the same reply, printed the way a
    conversation is. *)
Definition small_talk (said : string) : string :=
  "Conversation id: 1 " ++ newline ++ "user >> " ++ said ++ " " ++ newline
  ++ "bot >> Quite well, thank you " ++ newline.

(** An entity recogniser that knows one sentence. *)
Definition recogniser (said : string) : list entity :=
  if String.eqb said "Is Monday rainy in Paris or in London?" then
    [ {| ent_text := "Monday"; label_ := "DATE" |};
      {| ent_text := "Paris"; label_ := "GPE" |};
      {| ent_text := "London"; label_ := "GPE" |} ]
  else [].

(** The intent table as a start-up at nine o'clock would have filled it. *)
Definition morning_table : list (string * string) :=
  [ ("Current Weather in the city", no_city_message);
    ("What is the time?", "09:00");
    ("Thank you", "Cheers!");
    ("Close Down", "Cheerio");
    ("Wake Up {self.name}",
     "Hello I am Jarvis your AI assistant. Please ask for one thing at a time, I'm not all that smart. What can I do for you?") ].

Definition jarvis {Tensor : Type} (model : list string -> list Tensor) (said : string)
    : t Tensor :=
  {| name := "Jarvis"; text := said; chat := small_talk;
     similarity_model := model; city_identifier := recogniser;
     exit_flag := false; expected_inputs := Some morning_table;
     weather := Some (WeatherAdapter.__init__ "secret") |}.

(** Half past five in the afternoon, rain in every city, and a microphone
    that hears what it is given. *)
Definition afternoon (heard : sr_outcome) : World :=
  {| backend := fun _ _ => Response 200 (Some WeatherAdapter.light_rain);
     microphone := fun _ => heard;
     synthesiser := fun _ =>
       {| tempfile_created := true; playback_error := None; tempfile_removed := true |};
     clock := fun _ => "17:30";
     dice := fun _ => 0%nat;
     trace := [] |}.

Definition silence : World := afternoon (Fails UnknownValueError).

Definition torch_dispatch : M (t Torch.Tensor) string :=
  handle_conversation Torch.Tensor Torch.tensor_getitem Torch.tensor_index
    Torch.pytorch_cos_sim.

Definition positional_dispatch : M (t Positional.Tensor) string :=
  handle_conversation Positional.Tensor Positional.tensor_getitem
    Positional.tensor_index Positional.pytorch_cos_sim.

Definition batch_of (said : string) : list string :=
  [said; "Current Weather in the city"; "What is the time?"; "Thank you";
   "Close Down"; "Wake Up {self.name}"].

(** With a loop variable that can index, the search is the one intended: a
    strict maximum, and the first phrase of the table on a tie. *)
Example ties_go_to_the_first_phrase :
  best_match_loop Positional.Tensor Positional.tensor_getitem Positional.tensor_index
    Positional.pytorch_cos_sim (Positional.model (batch_of "How are you?"))
    (batch_of "How are you?") (tl (Positional.model (batch_of "How are you?")))
    (-1 # 1, None)
  = Ok (1 # 10, Some "Current Weather in the city").
Proof. reflexivity. Qed.

Example thanks_match_thank_you :
  best_match_loop Positional.Tensor Positional.tensor_getitem Positional.tensor_index
    Positional.pytorch_cos_sim (Positional.model (batch_of "Thanks a lot"))
    (batch_of "Thanks a lot") (tl (Positional.model (batch_of "Thanks a lot")))
    (-1 # 1, None)
  = Ok (9 # 10, Some "Thank you").
Proof. reflexivity. Qed.

(** What the last line of the dispatcher does to the printed conversation. *)
Example role_label_is_stripped :
  strip (slice_from (small_talk "How are you?")
           (find (small_talk "How are you?") "bot >> " + 6))
  = "Quite well, thank you".
Proof. reflexivity. Qed.

(** C1, on the code. Asked the time at half past five by a session whose
    table was filled at nine, the dispatcher does not invoke the action of
    the winning phrase. With PyTorch's tensors the first pass of the loop
    raises IndexError, the loop variable being a row and not a position. With
    rows that can index, the search finds the phrase and the dispatcher
    returns the entry stored at start-up, 09:00, without reading the clock
    ([get_time] would give 17:30); on "Close Down" it returns the stored
    farewell and the termination flag stays clear, whereas [sleep] sets it. *)
Theorem dispatch_returns_the_stored_entry :
  outcome (torch_dispatch (jarvis Torch.model "What is the time?") silence)
  = Raise (IndexError "tensors used as indices must be long, int, byte or bool tensors") /\
  positional_dispatch (jarvis Positional.model "What is the time?") silence
  = (Ok "09:00", jarvis Positional.model "What is the time?",
     record (Encode (batch_of "What is the time?")) silence) /\
  outcome (get_time Positional.Tensor (jarvis Positional.model "What is the time?") silence)
  = Ok "17:30" /\
  positional_dispatch (jarvis Positional.model "Close Down") silence
  = (Ok "Cheerio", jarvis Positional.model "Close Down",
     record (Encode (batch_of "Close Down")) silence) /\
  exit_flag (final_self (positional_dispatch (jarvis Positional.model "Close Down") silence))
  = false /\
  exit_flag (final_self (sleep Positional.Tensor "Close Down"
                           (jarvis Positional.model "Close Down") silence))
  = true.
Proof. repeat split. Qed.

(** C2, on the code. Small talk, which is close to no phrase of the table,
    never reaches the dialogue engine. With PyTorch's tensors the loop raises
    IndexError as above. With rows that can index, the search ends below the
    threshold and the dispatcher reads [self.nlp], an attribute that no
    ChatBot has (the pipeline is bound to [chat]): AttributeError, after the
    call to the embedding model and nothing else. *)
Theorem fallback_raises_attribute_error :
  outcome (torch_dispatch (jarvis Torch.model "How are you?") silence)
  = Raise (IndexError "tensors used as indices must be long, int, byte or bool tensors") /\
  positional_dispatch (jarvis Positional.model "How are you?") silence
  = (Raise (AttributeError "nlp"), jarvis Positional.model "How are you?",
     record (Encode (batch_of "How are you?")) silence) /\
  trace (final_world (positional_dispatch (jarvis Positional.model "How are you?") silence))
  = [Encode (batch_of "How are you?")].
Proof. repeat split. Qed.

(** The constructor on the same collaborators: it stops at the table. *)
Example jarvis_cannot_be_constructed :
  outcome (__init__ Torch.Tensor str_of_value "Jarvis" small_talk Torch.model recogniser silence)
  = Raise (TypeError "sleep() missing 1 required positional argument: 'text'").
Proof. reflexivity. Qed.

(** *** The properties above at concrete sessions *)

Lemma handle_conversation_sentinel_witness :
  torch_dispatch (jarvis Torch.model "ERROR") silence
  = (Ok "Sorry, come again?", jarvis Torch.model "ERROR", silence) /\
  trace (final_world (torch_dispatch (jarvis Torch.model "ERROR") silence)) = trace silence.
Proof.
  apply (handle_conversation_sentinel Torch.Tensor Torch.tensor_getitem
           Torch.tensor_index Torch.pytorch_cos_sim (jarvis Torch.model "ERROR") silence).
  reflexivity.
Defined.

Lemma spoken_sentinel_is_reprompted_witness :
  outcome (capture_and_dispatch Torch.Tensor Torch.tensor_getitem Torch.tensor_index
             Torch.pytorch_cos_sim (jarvis Torch.model "") (afternoon (Recognized "ERROR")))
  = Ok "Sorry, come again?" /\
  outcome (capture_and_dispatch Torch.Tensor Torch.tensor_getitem Torch.tensor_index
             Torch.pytorch_cos_sim (jarvis Torch.model "") silence)
  = Ok "Sorry, come again?".
Proof.
  destruct (spoken_sentinel_is_reprompted Torch.Tensor Torch.tensor_getitem
              Torch.tensor_index Torch.pytorch_cos_sim (jarvis Torch.model "")
              (afternoon (Recognized "ERROR")) silence UnknownValueError
              eq_refl eq_refl eq_refl) as (Hsaid & Hlost & _).
  split; [exact Hsaid | exact Hlost].
Defined.

Lemma close_down_sets_exit_flag_witness :
  run_loop Torch.Tensor Torch.tensor_getitem Torch.tensor_index Torch.pytorch_cos_sim 1
    (set_exit_flag true (jarvis Torch.model "Close Down")) silence
  = Some (Ok tt, set_exit_flag true (jarvis Torch.model "Close Down"),
          record (Print "<<<< Closing down Jarvis >>>>") silence).
Proof.
  destruct (close_down_sets_exit_flag Torch.Tensor Torch.tensor_getitem
              Torch.tensor_index Torch.pytorch_cos_sim str_of_value
              (set_exit_flag true (jarvis Torch.model "Close Down")) silence "Close Down")
    as (_ & _ & _ & _ & _ & _ & _ & _ & Hexit & _).
  apply (Hexit 0%nat). reflexivity.
Defined.

Lemma get_weather_asks_for_a_city_witness :
  get_weather Torch.Tensor str_of_value (jarvis Torch.model "How are you?") silence
  = (Ok "I say, old chap, one must specify a city to inquire about the weather.",
     jarvis Torch.model "How are you?", record (Entities "How are you?") silence) /\
  outcome (get_weather Torch.Tensor str_of_value
             (jarvis Torch.model "Is Monday rainy in Paris or in London?") silence)
  = Ok "Ah, in Paris, one observes the weather to be light rain. Quite intriguing, wouldn't you agree?".
Proof.
  split.
  - apply (proj1 (get_weather_asks_for_a_city Torch.Tensor str_of_value
                    (jarvis Torch.model "How are you?") silence)).
    constructor.
  - destruct (proj2 (get_weather_asks_for_a_city Torch.Tensor str_of_value
                       (jarvis Torch.model "Is Monday rainy in Paris or in London?")
                       silence)
                [ {| ent_text := "Monday"; label_ := "DATE" |} ]
                {| ent_text := "Paris"; label_ := "GPE" |}
                [ {| ent_text := "London"; label_ := "GPE" |} ]
                (WeatherAdapter.__init__ "secret")) as [_ Hanswer].
    + reflexivity.
    + repeat constructor. discriminate.
    + reflexivity.
    + discriminate.
    + reflexivity.
    + exact (Hanswer "light rain" eq_refl).
Defined.

(** *** The reply taken from the printed conversation *)

Lemma drop_marker (k : nat) :
  forall res : string,
    substring k 7 res = "bot >> " ->
    drop (k + 6) res = String " " (drop (k + 7) res).
Proof.
  induction k as [|k IH]; intros res H.
  - destruct res as [|c1 [|c2 [|c3 [|c4 [|c5 [|c6 [|c7 res]]]]]]];
      simpl in H; try discriminate H.
    injection H as _ _ _ _ _ _ H7 _. subst c7. reflexivity.
  - destruct res as [|c res]; [discriminate H|].
    simpl in H. simpl. apply IH. exact H.
Qed.

(** X15. When the printed conversation contains the marker of the engine's
    turn, the last line of the dispatcher keeps what follows the first
    occurrence of the marker, trimmed of surrounding white space: the offset
    6 leaves the marker's final space in, and the trimming removes it. *)
Theorem reply_after_marker (res : string) (k : nat) :
  String.index 0 "bot >> " res = Some k ->
  strip (slice_from res (find res "bot >> " + 6)) = strip (drop (k + 7) res).
Proof.
  intros H. unfold find. rewrite H.
  pose proof (index_correct1 0 k "bot >> " res H) as Hat.
  change (String.length "bot >> ") with 7%nat in Hat.
  unfold slice_from.
  replace (Z.of_nat k + 6 <? 0) with false by (symmetry; apply Z.ltb_ge; lia).
  replace (Z.to_nat (Z.of_nat k + 6)) with (k + 6)%nat by lia.
  rewrite (drop_marker k res Hat). reflexivity.
Qed.

(** X16. When the printed conversation does not contain the marker, the
    search gives -1 and the offset makes it 5: the first five characters are
    dropped and the rest, trimmed, is returned as the reply. *)
Theorem reply_without_marker (res : string) :
  String.index 0 "bot >> " res = None ->
  strip (slice_from res (find res "bot >> " + 6)) = strip (drop 5 res).
Proof.
  intros H. unfold find. rewrite H. reflexivity.
Qed.

Lemma reply_after_marker_witness :
  strip (slice_from (small_talk "How are you?")
           (find (small_talk "How are you?") "bot >> " + 6))
  = strip (drop (42 + 7) (small_talk "How are you?")).
Proof.
  apply (reply_after_marker (small_talk "How are you?") 42). reflexivity.
Defined.

Lemma reply_without_marker_witness :
  strip (slice_from "Quite well, thank you" (find "Quite well, thank you" "bot >> " + 6))
  = strip (drop 5 "Quite well, thank you").
Proof.
  apply (reply_without_marker "Quite well, thank you"). reflexivity.
Defined.

Example reply_without_marker_loses_text :
  strip (slice_from "Quite well, thank you" (find "Quite well, thank you" "bot >> " + 6))
  = "well, thank you".
Proof. reflexivity. Qed.

(** *** The further properties at concrete sessions *)

Lemma handle_conversation_answers_witness :
  (text (jarvis Positional.model "Thanks a lot") = "ERROR" /\ "Cheers!" = reprompt) \/
  (exists table phrase,
     expected_inputs (jarvis Positional.model "Thanks a lot") = Some table /\
     dict_get table phrase = Some "Cheers!").
Proof.
  apply (handle_conversation_answers Positional.Tensor Positional.tensor_getitem
           Positional.tensor_index Positional.pytorch_cos_sim
           (jarvis Positional.model "Thanks a lot") silence "Cheers!").
  reflexivity.
Defined.

Lemma dispatch_raises_when_rows_cannot_index_witness :
  torch_dispatch (jarvis Torch.model "What is the time?") silence
  = (Raise (IndexError "tensors used as indices must be long, int, byte or bool tensors"),
     jarvis Torch.model "What is the time?",
     record (Encode (batch_of "What is the time?")) silence).
Proof.
  apply (dispatch_raises_when_rows_cannot_index Torch.Tensor Torch.tensor_getitem
           Torch.tensor_index Torch.pytorch_cos_sim
           (jarvis Torch.model "What is the time?") silence morning_table
           (IndexError "tensors used as indices must be long, int, byte or bool tensors")).
  - discriminate.
  - reflexivity.
  - discriminate.
  - intros batch i. reflexivity.
Defined.

Lemma get_weather_apologises_or_raises_witness :
  outcome (get_weather Torch.Tensor str_of_value
             (jarvis Torch.model "Is Monday rainy in Paris or in London?")
             WeatherAdapter.not_found)
  = Ok "My apologies, but I regret to inform you that I was unable to procure the weather information for your request.".
Proof.
  destruct (get_weather_apologises_or_raises Torch.Tensor str_of_value
              (jarvis Torch.model "Is Monday rainy in Paris or in London?")
              WeatherAdapter.not_found
              [ {| ent_text := "Monday"; label_ := "DATE" |} ]
              {| ent_text := "Paris"; label_ := "GPE" |}
              [ {| ent_text := "London"; label_ := "GPE" |} ]
              (WeatherAdapter.__init__ "secret")) as (Hstatus & _).
  - reflexivity.
  - repeat constructor. discriminate.
  - reflexivity.
  - discriminate.
  - reflexivity.
  - apply (Hstatus 404 (Some (VDict [("cod", VStr "404")]))).
    + reflexivity.
    + lia.
Defined.

Lemma failed_recognition_is_reprompted_aloud_witness :
  outcome (iteration Torch.Tensor Torch.tensor_getitem Torch.tensor_index
             Torch.pytorch_cos_sim (jarvis Torch.model "") silence) = Ok tt /\
  final_self (iteration Torch.Tensor Torch.tensor_getitem Torch.tensor_index
                Torch.pytorch_cos_sim (jarvis Torch.model "") silence)
  = set_text "ERROR" (jarvis Torch.model "") /\
  exists diagnostic,
    trace (final_world (iteration Torch.Tensor Torch.tensor_getitem Torch.tensor_index
                          Torch.pytorch_cos_sim (jarvis Torch.model "") silence))
    = (trace silence ++ [Print "Listening..."; Listen; LogError diagnostic;
                         Print (name (jarvis Torch.model "") ++ " -->  Sorry, come again?");
                         Speak "Sorry, come again?"])%list.
Proof.
  apply (failed_recognition_is_reprompted_aloud Torch.Tensor Torch.tensor_getitem
           Torch.tensor_index Torch.pytorch_cos_sim (jarvis Torch.model "") silence
           UnknownValueError).
  - reflexivity.
  - reflexivity.
  - intros n. reflexivity.
Defined.

Lemma run_never_ends_on_silence_witness :
  run Torch.Tensor Torch.tensor_getitem Torch.tensor_index Torch.pytorch_cos_sim 3
    (jarvis Torch.model "") silence
  = None.
Proof.
  apply (run_never_ends_on_silence Torch.Tensor Torch.tensor_getitem
           Torch.tensor_index Torch.pytorch_cos_sim 3 (jarvis Torch.model "") silence).
  - intros n. exists UnknownValueError. split; reflexivity.
  - intros n. reflexivity.
Defined.

End ChatBot.
